(** * Recipe API (hw.py): an executable model and its properties

    The module [hw.py] keeps one global list [RECIPES] of dict-shaped
    records and exposes three handlers over it: [search_recipes],
    [fetch_recipe] and [create_recipe].  The model below follows the
    Python text: records are finite maps from field names to dynamically
    typed values, the handlers run in a small monad that threads the
    global list, collects what is printed and propagates exceptions.

    Text is modelled as [string]: the sequence of the bytes of its
    UTF-8 encoding, on which [sub in s] is containment of byte sequences.
    The case mapping [str.lower] of Python is not part of the sources and
    its Unicode tables are not reproduced: the handlers and all their
    properties are stated for an arbitrary function [lower] standing for
    it.  [Py.lower_ascii] is what [str.lower] computes on ASCII text; it
    is used only to run the handlers on ASCII examples. *)

From Stdlib Require Import ZArith Ascii String List DecimalString DecimalPos DecimalZ
  Sorted Lia.
From stdpp Require Import gmap strings list fin_maps.

Local Open Scope Z_scope.

(** ** Python values, dicts and exceptions *)

Inductive value : Type :=
  | VNone
  | VInt (z : Z)
  | VStr (s : string).

Global Instance value_eq_dec : EqDecision value.
Proof. solve_decision. Defined.

Abbreviation dict := (gmap string value).

Inductive exn : Type :=
  | KeyError (key : string)
  | AttributeError (attr : string)
  | HTTPException (status_code : Z) (detail : string).

Inductive result (A : Type) : Type :=
  | Ok (a : A)
  | Raise (e : exn).
Arguments Ok {A} a.
Arguments Raise {A} e.

Definition result_bind {A B} (r : result A) (f : A -> result B) : result B :=
  match r with
  | Ok a => f a
  | Raise e => Raise e
  end.

(** ** Python primitives used by the handlers *)

Module Py.

(** [c.lower()] for one ASCII character: 'A'..'Z' move to 'a'..'z'. *)
Definition lower_ascii_char (c : ascii) : ascii :=
  let n := N_of_ascii c in
  if ((65 <=? n) && (n <=? 90))%N then ascii_of_N (n + 32) else c.

(** [s.lower()] for a text [s] made of ASCII characters. *)
Fixpoint lower_ascii (s : string) : string :=
  match s with
  | EmptyString => EmptyString
  | String c s' => String (lower_ascii_char c) (lower_ascii s')
  end.

(** [s.startswith(p)] *)
Fixpoint startswith (p s : string) : bool :=
  match p, s with
  | EmptyString, _ => true
  | String _ _, EmptyString => false
  | String a p', String b s' => if ascii_dec a b then startswith p' s' else false
  end.

(** [sub in s] on text: [sub] occurs at some offset of [s]. *)
Fixpoint contains (sub s : string) : bool :=
  startswith sub s ||
  match s with
  | EmptyString => false
  | String _ s' => contains sub s'
  end.

(** [str(n)] for an int. *)
Definition str (n : Z) : string := NilZero.string_of_int (Z.to_int n).

(** [l[:stop]].  [None] keeps the whole list; a negative [stop] counts
    from the end, clamped at the start of the list. *)
Definition slice_to {A} (l : list A) (stop : option Z) : list A :=
  match stop with
  | None => l
  | Some k =>
      if 0 <=? k then firstn (Z.to_nat k) l
      else firstn (length l - Z.to_nat (- k)) l
  end.

(** Truthiness of an [Optional[str]]: [None] and the empty text are falsy. *)
Definition truthy (o : option string) : bool :=
  match o with
  | None => false
  | Some EmptyString => false
  | Some (String _ _) => true
  end.

(** [d[k]] *)
Definition getitem (d : dict) (k : string) : result value :=
  match d !! k with
  | Some v => Ok v
  | None => Raise (KeyError k)
  end.

(** [v.lower()] on a dynamically typed value, [lower] being [str.lower]. *)
Definition value_lower (lower : string -> string) (v : value) : result string :=
  match v with
  | VStr s => Ok (lower s)
  | _ => Raise (AttributeError "lower")
  end.

(** [v == w] *)
Definition eqb (v w : value) : bool := bool_decide (v = w).

(** [list(filter(f, l))], where evaluating [f] may raise. *)
Fixpoint filter {A} (f : A -> result bool) (l : list A) : result (list A) :=
  match l with
  | [] => Ok []
  | x :: l' =>
      result_bind (f x) (fun b =>
      result_bind (filter f l') (fun r =>
      Ok (if b then x :: r else r)))
  end.

End Py.

(** ** The handler monad: global [RECIPES], printed lines, exceptions *)

Definition M (A : Type) : Type :=
  list dict -> result A * list dict * list string.

Definition ret {A} (a : A) : M A := fun s => (Ok a, s, []).

Definition bind {A B} (m : M A) (f : A -> M B) : M B :=
  fun s =>
    match m s with
    | (Ok a, s1, out1) =>
        match f a s1 with
        | (r, s2, out2) => (r, s2, out1 ++ out2)
        end
    | (Raise e, s1, out1) => (Raise e, s1, out1)
    end.

Definition raise {A} (e : exn) : M A := fun s => (Raise e, s, []).
Definition lift {A} (r : result A) : M A := fun s => (r, s, []).
Definition read_RECIPES : M (list dict) := fun s => (Ok s, s, []).
Definition RECIPES_append (d : dict) : M unit := fun s => (Ok tt, s ++ [d], []).
Definition print (line : string) : M unit := fun s => (Ok tt, s, [line]).

Notation "x <- m ;; k" := (bind m (fun x => k))
  (at level 100, m at next level, right associativity).
Notation "m ;;; k" := (bind m (fun _ => k))
  (at level 100, right associativity).

(** ** The pydantic models *)

(** [class Recipe(BaseModel)]: the model defined in [hw.py] itself, which
    is the one in scope at every use of the name [Recipe]. *)
Module Recipe.
Record t : Type := Build { id : Z; label : string; source : string }.

(** [Recipe(id=.., label=.., source=.., **extra)]: keyword arguments
    that are not declared fields are ignored (pydantic's default). *)
Definition init (id : Z) (label source : string) (extra : dict) : t :=
  Build id label source.

(** [r.dict()] *)
Definition to_dict (r : t) : dict :=
  {[ "id" := VInt (id r); "label" := VStr (label r); "source" := VStr (source r) ]}.
End Recipe.

(** Modelled from the spec: [RecipeCreate] is imported from [app.schemas],
    which is not part of the sources; the creation input has the fields
    [label], [source] and an optional [url], all text. *)
Module RecipeCreate.
Record t : Type := Build { label : string; source : string; url : option string }.
End RecipeCreate.

Definition value_of_optstr (o : option string) : value :=
  match o with
  | None => VNone
  | Some s => VStr s
  end.

(** The value returned by [search_recipes]: a dict with the single key
    ["results"]. *)
Record SearchResults : Type := { results : list dict }.

(** ** The module's state *)

Definition RECIPES : list dict :=
  [ {[ "id" := VInt 1;
       "label" := VStr "Chicken Vesuvio";
       "source" := VStr "Serious Eats";
       "url" := VStr "http://www.seriouseats.com/recipes/2011/12/chicken-vesuvio-recipe.html" ]};
    {[ "id" := VInt 2;
       "label" := VStr "Chicken Paprikash";
       "source" := VStr "No Recipes";
       "url" := VStr "http://norecipes.com/recipe/chicken-paprikash/" ]};
    {[ "id" := VInt 3;
       "label" := VStr "Cauliflower and Tofu Curry Recipe";
       "source" := VStr "Serious Eats";
       "url" := VStr "http://www.seriouseats.com/recipes/2011/02/cauliflower-and-tofu-curry-recipe.html" ]} ].

(** ** Proof tactics *)

(** Unfolds the monad operations in a handler applied to a store. *)
Ltac run_handler :=
  unfold bind, read_RECIPES, RECIPES_append, print, lift, ret, raise; simpl.

(** Closes an equation between closed terms by evaluating both sides. *)
Ltac by_evaluation :=
  lazymatch goal with
  | |- @eq ?T _ ?rhs => vm_cast_no_check (@eq_refl T rhs)
  end.

(** ** The handlers *)

Section Handlers.

(** Python's [str.lower]. *)
Variable lower : string -> string.

(** The lambda of [search_recipes]:
    [keyword.lower() in recipe["label"].lower()]. *)
Definition label_has_keyword (keyword : string) (recipe : dict) : result bool :=
  let k := lower keyword in
  result_bind (Py.getitem recipe "label") (fun v =>
  result_bind (Py.value_lower lower v) (fun l =>
  Ok (Py.contains k l))).

Definition search_recipes (keyword : option string) (max_results : option Z)
  : M SearchResults :=
  if negb (Py.truthy keyword) then
    recipes <- read_RECIPES ;;
    ret {| results := Py.slice_to recipes max_results |}
  else
    recipes <- read_RECIPES ;;
    matching <- lift (Py.filter (label_has_keyword (default EmptyString keyword)) recipes) ;;
    ret {| results := Py.slice_to matching max_results |}.

(** The condition of the comprehension of [fetch_recipe]:
    [recipe["id"] == recipe_id]. *)
Definition id_is (recipe_id : Z) (recipe : dict) : result bool :=
  result_bind (Py.getitem recipe "id") (fun v => Ok (Py.eqb v (VInt recipe_id))).

Definition fetch_recipe (recipe_id : Z) : M dict :=
  recipes <- read_RECIPES ;;
  result <- lift (Py.filter (id_is recipe_id) recipes) ;;
  match result with
  | [] =>
      raise (HTTPException 404
               ("Recipe with id " +:+ Py.str recipe_id +:+ " not found "))
  | first :: _ => ret first
  end.

Definition create_recipe (recipe_in : RecipeCreate.t) : M Recipe.t :=
  recipes <- read_RECIPES ;;
  let new_entry_id := Z.of_nat (length recipes) + 1 in
  print (Py.str new_entry_id) ;;;
  let recipe_entry :=
    Recipe.init new_entry_id
      (RecipeCreate.label recipe_in)
      (RecipeCreate.source recipe_in)
      {[ "url" := value_of_optstr (RecipeCreate.url recipe_in) ]} in
  RECIPES_append (Recipe.to_dict recipe_entry) ;;;
  ret recipe_entry.

(** Running a sequence of creations from a given store. *)
Fixpoint create_all (inputs : list RecipeCreate.t) (s : list dict) : list dict :=
  match inputs with
  | [] => s
  | i :: rest => create_all rest (create_recipe i s).1.2
  end.

(** ** Vocabulary of the properties *)

(** [lbl] contains [kw] case-insensitively: the lower-case form of [lbl]
    has the lower-case form of [kw] as a substring. *)
Definition ci_contains (kw lbl : string) : Prop :=
  exists pre suf, lower lbl = pre +:+ lower kw +:+ suf.

(** A record matches a keyword when its label is text that contains the
    keyword case-insensitively. *)
Definition matches (kw : string) (d : dict) : Prop :=
  exists lbl, d !! "label" = Some (VStr lbl) /\ ci_contains kw lbl.

(** A record carries the integer [recipe_id] under ["id"]. *)
Definition has_id (recipe_id : Z) (d : dict) : Prop :=
  d !! "id" = Some (VInt recipe_id).

(** The shape every stored record has: an ["id"] entry and a text label. *)
Definition record_ok (d : dict) : Prop :=
  is_Some (d !! "id") /\ exists lbl, d !! "label" = Some (VStr lbl).

(** [selected P l r]: [r] lists the elements of [l] that satisfy [P], in
    the order of [l]. *)
Inductive selected {A} (P : A -> Prop) : list A -> list A -> Prop :=
  | selected_nil : selected P [] []
  | selected_keep x l r : P x -> selected P l r -> selected P (x :: l) (x :: r)
  | selected_skip x l r : ~ P x -> selected P l r -> selected P (x :: l) r.

(** [first_such P l x]: [x] is the first element of [l] that satisfies [P]. *)
Definition first_such {A} (P : A -> Prop) (l : list A) (x : A) : Prop :=
  exists pre post, l = pre ++ x :: post /\ P x /\ Forall (fun y => ~ P y) pre.

(** [ids_of s ids]: the records of [s] carry, in store order, the integer
    ids [ids]. *)
Definition ids_of (s : list dict) (ids : list Z) : Prop :=
  (fun d : dict => d !! "id") <$> s = (fun z => Some (VInt z)) <$> ids.

(** The error [fetch_recipe] raises for an id it does not find. *)
Definition not_found (recipe_id : Z) : exn :=
  HTTPException 404 ("Recipe with id " +:+ Py.str recipe_id +:+ " not found ").

(** The record a creation builds in a store [s]: the next id, and the
    label and source of the input. *)
Definition new_entry (recipe_in : RecipeCreate.t) (s : list dict) : Recipe.t :=
  Recipe.Build (Z.of_nat (length s) + 1)
    (RecipeCreate.label recipe_in) (RecipeCreate.source recipe_in).

(** The creation input of the round-trip scenario. *)
Definition lasagna : RecipeCreate.t :=
  RecipeCreate.Build "Lasagna" "Grandma" (Some EmptyString).

(** ** The remaining handler, and calls in sequence *)

(** [root]: the greeting. *)
Definition root : M dict := ret {[ "msg" := VStr "Hello World!" ]}.

(** A call of one of the four handlers with its arguments, and what a call
    returns. *)
Inductive call : Type :=
  | CallRoot
  | CallSearch (keyword : option string) (max_results : option Z)
  | CallFetch (recipe_id : Z)
  | CallCreate (recipe_in : RecipeCreate.t).

Inductive reply : Type :=
  | RootReply (d : dict)
  | SearchReply (r : SearchResults)
  | FetchReply (d : dict)
  | CreateReply (r : Recipe.t).

Definition handle (c : call) : M reply :=
  match c with
  | CallRoot => d <- root ;; ret (RootReply d)
  | CallSearch keyword max_results =>
      r <- search_recipes keyword max_results ;; ret (SearchReply r)
  | CallFetch recipe_id => d <- fetch_recipe recipe_id ;; ret (FetchReply d)
  | CallCreate recipe_in => r <- create_recipe recipe_in ;; ret (CreateReply r)
  end.

(** Calls made one after the other on the same [RECIPES]: each runs to its
    return or to its exception, and the next one starts from the store it
    left.  The result lists the outcomes in call order and the final store. *)
Fixpoint serve (calls : list call) (s : list dict)
  : list (result reply) * list dict :=
  match calls with
  | [] => ([], s)
  | c :: rest =>
      match handle c s with
      | (r, s1, _) =>
          match serve rest s1 with
          | (rs, s2) => (r :: rs, s2)
          end
      end
  end.

(** The inputs of the creations among [calls], in call order. *)
Fixpoint creations (calls : list call) : list RecipeCreate.t :=
  match calls with
  | [] => []
  | CallCreate recipe_in :: rest => recipe_in :: creations rest
  | _ :: rest => creations rest
  end.

(** A record with no text under ["label"]: the key is missing or holds
    something else. *)
Definition no_text_label (d : dict) : Prop :=
  forall lbl, d !! "label" <> Some (VStr lbl).

(** What a call must give in a store [s]: a record for [root], results for
    a search, the new record for a creation; for a fetch, the first record
    of [s] with the id, or the 404 error when [s] has no record with it. *)
Definition expected_outcome (s : list dict) (c : call) (o : result reply) : Prop :=
  match c with
  | CallRoot => exists d, o = Ok (RootReply d)
  | CallSearch _ _ => exists r, o = Ok (SearchReply r)
  | CallFetch recipe_id =>
      (exists d, first_such (has_id recipe_id) s d /\ o = Ok (FetchReply d))
      \/ (Forall (fun d => ~ has_id recipe_id d) s
          /\ o = Raise (not_found recipe_id))
  | CallCreate recipe_in => o = Ok (CreateReply (new_entry recipe_in s))
  end.

(** The keys of a record made by a creation. *)
Definition created_keys : gset string := {[ "id"; "label"; "source" ]}.

(** ** The primitives on small inputs *)

Example lower_mixed : Py.lower_ascii "Chicken Vesuvio" = "chicken vesuvio".
Proof. reflexivity. Qed.

Example contains_inside : Py.contains "ken" "chicken vesuvio" = true.
Proof. reflexivity. Qed.

Example contains_is_case_sensitive : Py.contains "Chicken" "chicken" = false.
Proof. reflexivity. Qed.

Example str_999 : Py.str 999 = "999".
Proof. reflexivity. Qed.

Example slice_to_short : Py.slice_to [1; 2; 3] (Some 10) = [1; 2; 3].
Proof. reflexivity. Qed.

Example slice_to_minus_one : Py.slice_to [1; 2; 3] (Some (-1)) = [1; 2].
Proof. reflexivity. Qed.

Example slice_to_far_negative : Py.slice_to [1; 2; 3] (Some (-7)) = [].
Proof. reflexivity. Qed.

(** ** Text lemmas *)

Section Text.

Lemma startswith_spec p s :
  Py.startswith p s = true <-> exists suf, s = p +:+ suf.
Proof.
  revert s. induction p as [|a p IH]; intros s; simpl.
  - split; [intros _; now exists s|reflexivity].
  - destruct s as [|b s].
    + split; [discriminate|intros [suf H]; discriminate].
    + destruct (ascii_dec a b) as [->|Hne].
      * rewrite IH. split; intros [suf H]; exists suf.
        -- now rewrite H.
        -- now injection H.
      * split; [discriminate|]. intros [suf H]. injection H as Hab _.
        now destruct Hne.
Qed.

Lemma contains_spec sub s :
  Py.contains sub s = true <-> exists pre suf, s = pre +:+ sub +:+ suf.
Proof.
  induction s as [|c s IH]; simpl.
  - rewrite orb_false_r, startswith_spec. split.
    + intros [suf H]. now exists EmptyString, suf.
    + intros ([|? ?] & suf & H); simpl in H; [now exists suf|discriminate].
  - rewrite orb_true_iff, startswith_spec, IH. split.
    + intros [[suf H]|(pre & suf & H)].
      * now exists EmptyString, suf.
      * exists (String c pre), suf. simpl. now rewrite H.
    + intros ([|c' pre] & suf & H); simpl in H.
      * left. now exists suf.
      * right. injection H as _ H. now exists pre, suf.
Qed.

(** The test of the search lambda decides case-insensitive containment. *)
Lemma contains_lower_spec kw lbl :
  Py.contains (lower kw) (lower lbl) = true <-> ci_contains kw lbl.
Proof. apply contains_spec. Qed.

Lemma append_cons c s t : String c s +:+ t = String c (s +:+ t).
Proof. reflexivity. Qed.

Lemma append_nil_r s : s +:+ EmptyString = s.
Proof.
  induction s as [|c s IH]; [reflexivity|].
  now rewrite append_cons, IH.
Qed.

Lemma ci_contains_refl s : ci_contains s s.
Proof.
  exists EmptyString, EmptyString.
  change (lower s = lower s +:+ EmptyString). now rewrite append_nil_r.
Qed.

End Text.

(** ** Lemmas on the list primitives *)

Section Lists.

Context {A : Type}.

Lemma selected_Forall (P : A -> Prop) l r : selected P l r -> Forall P r.
Proof. induction 1; auto. Qed.

Lemma selected_sublist (P : A -> Prop) l r : selected P l r -> r `sublist_of` l.
Proof. induction 1; constructor; assumption. Qed.

Lemma selected_complete (P : A -> Prop) l r x :
  selected P l r -> x ∈ l -> P x -> x ∈ r.
Proof.
  induction 1 as [|y l r Hy _ IH|y l r Hy _ IH]; intros Hin Hx.
  - assumption.
  - apply elem_of_cons in Hin as [->|Hin]; [left|right; auto].
  - apply elem_of_cons in Hin as [->|Hin]; [contradiction|auto].
Qed.

(** [selected] determines its result. *)
Lemma selected_unique (P : A -> Prop) l r1 r2 :
  selected P l r1 -> selected P l r2 -> r1 = r2.
Proof.
  intros H. revert r2.
  induction H as [|x l r Hx _ IH|x l r Hx _ IH]; intros r2 H2;
    inversion H2; subst; try contradiction; auto using f_equal.
Qed.

Lemma selected_none (P : A -> Prop) l :
  selected P l [] -> Forall (fun y => ~ P y) l.
Proof.
  remember [] as r eqn:E. induction 1; [constructor|discriminate|auto].
Qed.

Lemma selected_first (P : A -> Prop) l x r :
  selected P l (x :: r) -> first_such P l x.
Proof.
  remember (x :: r) as xr eqn:E. intros H. revert E.
  induction H as [|y l r' Hy _ _|y l r' Hy _ IH]; intros E.
  - discriminate.
  - injection E as -> ->. exists [], l. repeat split; [assumption|constructor].
  - destruct (IH E) as (pre & post & -> & Hx & Hpre).
    exists (y :: pre), post. repeat split; [assumption|].
    now constructor.
Qed.

(** When the test never raises and decides [P], [Py.filter] returns the
    elements satisfying [P], in order. *)
Lemma py_filter_selected (f : A -> result bool) (P : A -> Prop) l :
  Forall (fun x => (f x = Ok true /\ P x) \/ (f x = Ok false /\ ~ P x)) l ->
  exists r, Py.filter f l = Ok r /\ selected P l r.
Proof.
  induction 1 as [|x l Hx _ (r & Hr & Hsel)]; simpl.
  - exists []. split; [reflexivity|constructor].
  - rewrite Hr. destruct Hx as [[-> Hp]|[-> Hp]]; simpl.
    + exists (x :: r). split; [reflexivity|now constructor].
    + exists r. split; [reflexivity|now constructor].
Qed.

Lemma selected_length (P : A -> Prop) l r :
  selected P l r -> (length r <= length l)%nat.
Proof. induction 1; simpl; lia. Qed.

Lemma slice_to_nonneg (l : list A) k :
  0 <= k -> Py.slice_to l (Some k) = take (Z.to_nat k) l.
Proof. intros H. unfold Py.slice_to. now rewrite (proj2 (Z.leb_le 0 k) H). Qed.

(** A negative bound drops that many elements from the end instead. *)
Lemma slice_to_negative (l : list A) k :
  k < 0 -> Py.slice_to l (Some k) = take (length l - Z.to_nat (- k)) l.
Proof. intros H. unfold Py.slice_to. now rewrite (proj2 (Z.leb_gt 0 k) H). Qed.

Lemma slice_to_sublist (l : list A) stop : Py.slice_to l stop `sublist_of` l.
Proof.
  destruct stop as [k|]; simpl; [|reflexivity].
  destruct (0 <=? k); apply sublist_take.
Qed.

Lemma take_length_bound (l : list A) k :
  0 <= k -> Z.of_nat (length (take (Z.to_nat k) l)) <= k.
Proof. intros H. rewrite length_take. lia. Qed.

End Lists.

(** ** Running the handlers *)

Section Search.

Lemma label_has_keyword_decides kw d :
  record_ok d ->
  (label_has_keyword kw d = Ok true /\ matches kw d)
  \/ (label_has_keyword kw d = Ok false /\ ~ matches kw d).
Proof.
  intros [_ [lbl Hl]]. unfold label_has_keyword, Py.getitem.
  rewrite Hl. simpl.
  destruct (Py.contains (lower kw) (lower lbl)) eqn:E.
  - left. split; [reflexivity|]. exists lbl. split; [assumption|].
    now apply contains_lower_spec.
  - right. split; [reflexivity|]. intros (l & H & Hc).
    rewrite Hl in H. injection H as <-.
    apply contains_lower_spec in Hc. congruence.
Qed.

Lemma truthy_nonempty kw : kw <> EmptyString -> Py.truthy (Some kw) = true.
Proof. destruct kw; [congruence|reflexivity]. Qed.

(** Without a keyword the handler slices the store. *)
Lemma search_no_keyword kw m s :
  Py.truthy kw = false ->
  search_recipes kw m s = (Ok {| results := Py.slice_to s m |}, s, []).
Proof. intros H. unfold search_recipes. now rewrite H. Qed.

(** With a keyword it slices the matching records. *)
Lemma search_with_keyword kw m s :
  Forall record_ok s -> kw <> EmptyString ->
  exists hits,
    selected (matches kw) s hits
    /\ search_recipes (Some kw) m s
       = (Ok {| results := Py.slice_to hits m |}, s, []).
Proof.
  intros Hs Hkw.
  destruct (py_filter_selected (label_has_keyword kw) (matches kw) s)
    as (hits & Hf & Hsel).
  { eapply Forall_impl; [exact Hs|]. intros d Hd.
    now apply label_has_keyword_decides. }
  exists hits. split; [assumption|].
  unfold search_recipes. rewrite (truthy_nonempty kw Hkw). run_handler.
  now rewrite Hf.
Qed.

Lemma search_wide_bound s kw m :
  Forall record_ok s -> kw <> EmptyString ->
  (m = None \/ exists k, m = Some k /\ Z.of_nat (length s) <= k) ->
  exists hits,
    selected (matches kw) s hits
    /\ search_recipes (Some kw) m s = (Ok {| results := hits |}, s, [])
    /\ forall d, d ∈ s -> matches kw d -> d ∈ hits.
Proof.
  intros Hs Hkw Hm.
  destruct (search_with_keyword kw m s Hs Hkw) as (hits & Hsel & Hrun).
  exists hits. split; [assumption|]. split.
  - rewrite Hrun.
    destruct Hm as [->|(k & -> & Hk)]; [reflexivity|].
    rewrite slice_to_nonneg by lia. rewrite take_ge; [reflexivity|].
    apply selected_length in Hsel. lia.
  - intros d Hd Hmatch. eapply selected_complete; eassumption.
Qed.

(** A search leaves [RECIPES] as it found it and prints nothing, whether
    it returns or raises. *)
Lemma search_reads_only kw m s :
  exists r, search_recipes kw m s = (r, s, []).
Proof.
  unfold search_recipes. run_handler.
  destruct (negb (Py.truthy kw)); [eauto|].
  destruct (Py.filter _ s); eauto.
Qed.

End Search.

Section Fetch.

Lemma id_is_decides recipe_id d :
  record_ok d ->
  (id_is recipe_id d = Ok true /\ has_id recipe_id d)
  \/ (id_is recipe_id d = Ok false /\ ~ has_id recipe_id d).
Proof.
  intros [[v Hv] _]. unfold id_is, Py.getitem, has_id, Py.eqb.
  rewrite Hv. simpl.
  destruct (decide (v = VInt recipe_id)) as [->|Hne].
  - left. split; [|reflexivity]. now rewrite bool_decide_eq_true_2.
  - right. split; [now rewrite bool_decide_eq_false_2|]. congruence.
Qed.

(** [fetch_recipe] either returns the first record carrying the id, or
    raises the 404 error, and then no record carries it. *)
Lemma fetch_recipe_cases recipe_id s :
  Forall record_ok s ->
  (exists d, first_such (has_id recipe_id) s d
             /\ fetch_recipe recipe_id s = (Ok d, s, []))
  \/ (Forall (fun d => ~ has_id recipe_id d) s
      /\ fetch_recipe recipe_id s = (Raise (not_found recipe_id), s, [])).
Proof.
  intros Hs.
  destruct (py_filter_selected (id_is recipe_id) (has_id recipe_id) s)
    as (r & Hf & Hsel).
  { eapply Forall_impl; [exact Hs|]. intros d Hd. now apply id_is_decides. }
  unfold fetch_recipe. run_handler. rewrite Hf.
  destruct r as [|d r].
  - right. split; [now apply selected_none|reflexivity].
  - left. exists d. split; [now apply selected_first in Hsel|reflexivity].
Qed.

Lemma first_such_unique {A} (P : A -> Prop) l x y :
  first_such P l x -> first_such P l y -> x = y.
Proof.
  intros (p1 & q1 & E1 & Hx & H1). revert l E1.
  induction H1 as [|z p1 Hz _ IH]; intros l E1 (p2 & q2 & E2 & Hy & H2);
    subst l; destruct p2 as [|w p2]; simpl in E2.
  - now injection E2.
  - injection E2 as <- _. inversion H2; subst. contradiction.
  - injection E2 as -> _. contradiction.
  - injection E2 as <- E2. inversion H2; subst.
    apply (IH _ eq_refl). exists p2, q2. auto.
Qed.

End Fetch.

Section Create.

(** One run of [create_recipe], step by step. *)
Lemma create_recipe_run recipe_in s :
  create_recipe recipe_in s
  = (Ok (new_entry recipe_in s),
     s ++ [Recipe.to_dict (new_entry recipe_in s)],
     [Py.str (Z.of_nat (length s) + 1)]).
Proof. reflexivity. Qed.

Lemma to_dict_id r : Recipe.to_dict r !! "id" = Some (VInt (Recipe.id r)).
Proof. unfold Recipe.to_dict. now rewrite lookup_insert_eq. Qed.

Lemma to_dict_label r : Recipe.to_dict r !! "label" = Some (VStr (Recipe.label r)).
Proof.
  unfold Recipe.to_dict.
  rewrite lookup_insert_ne by discriminate. now rewrite lookup_insert_eq.
Qed.

Lemma to_dict_ok r : record_ok (Recipe.to_dict r).
Proof.
  split.
  - rewrite to_dict_id. eauto.
  - exists (Recipe.label r). apply to_dict_label.
Qed.

Lemma to_dict_matches kw r :
  matches kw (Recipe.to_dict r) <-> ci_contains kw (Recipe.label r).
Proof.
  unfold matches. rewrite to_dict_label. split.
  - intros (lbl & H & Hc). now injection H as <-.
  - intros Hc. eauto.
Qed.

Lemma RECIPES_ok : Forall record_ok RECIPES.
Proof.
  unfold RECIPES, record_ok.
  repeat constructor; eexists; reflexivity.
Qed.

Lemma create_recipe_ok recipe_in s :
  Forall record_ok s -> Forall record_ok (create_recipe recipe_in s).1.2.
Proof.
  intros H. rewrite create_recipe_run. cbn [fst snd].
  apply Forall_app. split; [assumption|].
  constructor; [apply to_dict_ok|constructor].
Qed.

(** Every store the program can reach has well-shaped records. *)
Lemma create_all_ok inputs s :
  Forall record_ok s -> Forall record_ok (create_all inputs s).
Proof.
  revert s. induction inputs as [|i inputs IH]; intros s H;
    cbn [create_all]; [assumption|].
  apply IH. now apply create_recipe_ok.
Qed.

Lemma reachable_ok inputs : Forall record_ok (create_all inputs RECIPES).
Proof. apply create_all_ok, RECIPES_ok. Qed.

Lemma create_all_ids inputs s :
  ids_of s (seqZ 1 (Z.of_nat (length s))) ->
  ids_of (create_all inputs s)
         (seqZ 1 (Z.of_nat (length (create_all inputs s)))).
Proof.
  revert s. induction inputs as [|i inputs IH]; intros s H;
    cbn [create_all]; [assumption|].
  apply IH. rewrite create_recipe_run. cbn [fst snd].
  unfold ids_of in *.
  rewrite length_app. simpl. rewrite Nat.add_1_r, seqZ_S, !fmap_app, H. simpl.
  rewrite to_dict_id. simpl. now rewrite (Z.add_comm 1).
Qed.

Lemma seqZ_sorted n m : StronglySorted Z.lt (seqZ m (Z.of_nat n)).
Proof.
  revert m. induction n as [|n IH]; intros m.
  - rewrite seqZ_nil by lia. constructor.
  - rewrite seqZ_cons by lia.
    replace (Z.pred (Z.of_nat (S n))) with (Z.of_nat n) by lia.
    constructor; [apply IH|].
    apply Forall_seqZ. lia.
Qed.

End Create.

(** ** The properties of the specification *)

Section SearchProperties.

(** C1 (amended): for every search with a non-empty keyword over a store
    of well-shaped records, the handler returns records that all match the
    keyword (their label contains it, case-insensitively: both compared in
    lower case), in store order; when [max_results] is non-negative they
    are the first [max_results] matching records of the store. *)
Theorem search_keyword_matches (s : list dict) (kw : string) (m : Z) :
  Forall record_ok s -> kw <> EmptyString ->
  exists hits res,
    selected (matches kw) s hits
    /\ search_recipes (Some kw) (Some m) s = (Ok {| results := res |}, s, [])
    /\ Forall (matches kw) res
    /\ res `sublist_of` s
    /\ (0 <= m -> res = take (Z.to_nat m) hits).
Proof.
  intros Hs Hkw.
  destruct (search_with_keyword kw (Some m) s Hs Hkw) as (hits & Hsel & Hrun).
  exists hits, (Py.slice_to hits (Some m)).
  split; [assumption|]. split; [assumption|].
  assert (Hsub : Py.slice_to hits (Some m) `sublist_of` hits)
    by apply slice_to_sublist.
  split; [|split].
  - apply selected_Forall in Hsel. rewrite Forall_forall in *.
    intros d Hd. apply Hsel. eapply elem_of_sublist; eassumption.
  - etransitivity; [exact Hsub|]. eapply selected_sublist; eassumption.
  - apply slice_to_nonneg.
Qed.

(** C5 (amended): for every search over a store of well-shaped records,
    with any keyword (present, absent or empty) and any non-negative
    [max_results], the handler returns at most [max_results] records. *)
Theorem search_bounded (s : list dict) (kw : option string) (m : Z) :
  Forall record_ok s -> 0 <= m ->
  exists res,
    search_recipes kw (Some m) s = (Ok res, s, [])
    /\ Z.of_nat (length (results res)) <= m.
Proof.
  intros Hs Hm.
  destruct (Py.truthy kw) eqn:Ht.
  - destruct kw as [[|c k]|]; try discriminate.
    destruct (search_with_keyword (String c k) (Some m) s Hs) as (hits & _ & Hrun);
      [discriminate|].
    eexists. split; [exact Hrun|]. cbn [results].
    rewrite slice_to_nonneg by assumption. now apply take_length_bound.
  - eexists. split; [now apply search_no_keyword|]. cbn [results].
    rewrite slice_to_nonneg by assumption. now apply take_length_bound.
Qed.

(** C6 (amended): for every search whose keyword is absent or empty and
    whose [max_results] is non-negative, the result is the first
    [max_results] records of the store in stored order, unfiltered; in
    particular [search(None, 10)] on the seeded store returns the three
    seed records in their order. *)
Theorem search_without_keyword :
  (forall (s : list dict) (kw : option string) (m : Z),
      kw = None \/ kw = Some EmptyString -> 0 <= m ->
      search_recipes kw (Some m) s
      = (Ok {| results := take (Z.to_nat m) s |}, s, []))
  /\ search_recipes None (Some 10) RECIPES
     = (Ok {| results := RECIPES |}, RECIPES, []).
Proof.
  split.
  - intros s kw m Hkw Hm.
    rewrite search_no_keyword by (destruct Hkw as [->| ->]; reflexivity).
    now rewrite slice_to_nonneg.
  - rewrite search_no_keyword by reflexivity. reflexivity.
Qed.

(** C9: a search is a pure read.  Two searches with the same arguments,
    run one after the other, return the same outcome, and the store after
    each of them is the store before the first. *)
Theorem search_pure_read (s : list dict) (kw : option string) (m : option Z) :
  let '(r1, s1, _) := search_recipes kw m s in
  let '(r2, s2, _) := search_recipes kw m s1 in
  r1 = r2 /\ s1 = s /\ s2 = s.
Proof.
  destruct (search_reads_only kw m s) as [r E].
  rewrite E, E. auto.
Qed.

End SearchProperties.

Section FetchProperties.

(** C2: over a store of well-shaped records, for every integer id,
    [fetch_recipe] returns the first record in store order whose id is the
    argument, and raises exactly when no record has that id; what it
    raises is an [HTTPException] with status 404 whose detail spells out
    the requested id.  On the seeded store, fetching id 2 returns the
    record labelled "Chicken Paprikash" and fetching id 999 raises. *)
Theorem fetch_recipe_spec :
  (forall (s : list dict) (recipe_id : Z),
      Forall record_ok s ->
      ((exists d, first_such (has_id recipe_id) s d
                  /\ fetch_recipe recipe_id s = (Ok d, s, []))
       \/ (Forall (fun d => ~ has_id recipe_id d) s
           /\ fetch_recipe recipe_id s = (Raise (not_found recipe_id), s, [])))
      /\ (fetch_recipe recipe_id s = (Raise (not_found recipe_id), s, [])
          <-> Forall (fun d => ~ has_id recipe_id d) s))
  /\ (forall recipe_id,
         not_found recipe_id
         = HTTPException 404
             ("Recipe with id " +:+ Py.str recipe_id +:+ " not found "))
  /\ (exists d, fetch_recipe 2 RECIPES = (Ok d, RECIPES, [])
                /\ d !! "label" = Some (VStr "Chicken Paprikash"))
  /\ fetch_recipe 999 RECIPES
     = (Raise (HTTPException 404 "Recipe with id 999 not found "), RECIPES, []).
Proof.
  split; [|split; [reflexivity|split]].
  - intros s recipe_id Hs.
    pose proof (fetch_recipe_cases recipe_id s Hs) as Hc.
    split; [exact Hc|]. split.
    + intros Hr. destruct Hc as [(d & _ & Hd)|[Hnone _]]; [|assumption].
      rewrite Hd in Hr. discriminate.
    + intros Hnone. destruct Hc as [(d & Hfirst & _)|[_ Hr]]; [|assumption].
      destruct Hfirst as (pre & post & -> & Hd & _).
      apply Forall_app in Hnone as [_ Hnone].
      inversion Hnone; subst. contradiction.
  - exists (RECIPES !!! 1%nat). split; [by_evaluation|reflexivity].
  - by_evaluation.
Qed.

End FetchProperties.

Section CreateProperties.

(** C3: every creation assigns the store's size before the call plus one
    as the id, and the record returned to the caller (as well as the one
    stored) carries that id. *)
Theorem create_assigns_next_id (recipe_in : RecipeCreate.t) (s : list dict) :
  exists r out,
    create_recipe recipe_in s = (Ok r, s ++ [Recipe.to_dict r], out)
    /\ Recipe.id r = Z.of_nat (length s) + 1
    /\ Recipe.to_dict r !! "id" = Some (VInt (Z.of_nat (length s) + 1)).
Proof.
  exists (new_entry recipe_in s), [Py.str (Z.of_nat (length s) + 1)].
  split; [apply create_recipe_run|]. split; [reflexivity|].
  apply to_dict_id.
Qed.

(** C4: starting from the seeded store, after any sequence of creations,
    the ids of the records, read in store order (which is creation order),
    are 1, 2, ..., n: pairwise distinct and strictly increasing. *)
Theorem ids_unique_increasing (inputs : list RecipeCreate.t) :
  exists ids,
    ids_of (create_all inputs RECIPES) ids
    /\ ids = seqZ 1 (Z.of_nat (length (create_all inputs RECIPES)))
    /\ NoDup ids
    /\ StronglySorted Z.lt ids.
Proof.
  eexists. split; [|split; [reflexivity|split]].
  - apply create_all_ids. reflexivity.
  - apply NoDup_seqZ.
  - apply seqZ_sorted.
Qed.

(** C7: on the seeded store, creating "Lasagna" by "Grandma" with an
    empty url returns a record [r]; fetching [r]'s id then returns the
    stored form of [r], and searching "Lasagna" with bound 10 lists it. *)
Theorem create_then_read :
  exists r s',
    create_recipe lasagna RECIPES = (Ok r, s', ["4"])
    /\ fetch_recipe (Recipe.id r) s' = (Ok (Recipe.to_dict r), s', [])
    /\ exists res,
         search_recipes (Some "Lasagna") (Some 10) s' = (Ok res, s', [])
         /\ Recipe.to_dict r ∈ results res.
Proof.
  exists (new_entry lasagna RECIPES),
         (RECIPES ++ [Recipe.to_dict (new_entry lasagna RECIPES)]).
  split; [by_evaluation|]. split; [by_evaluation|].
  set (r := new_entry lasagna RECIPES).
  assert (Hok : Forall record_ok (RECIPES ++ [Recipe.to_dict r])).
  { apply Forall_app. split; [apply RECIPES_ok|].
    constructor; [apply to_dict_ok|constructor]. }
  destruct (search_wide_bound (RECIPES ++ [Recipe.to_dict r]) "Lasagna"
              (Some 10) Hok) as (hits & _ & Hrun & Hall).
  { discriminate. }
  { right. exists 10. split; [reflexivity|]. simpl. lia. }
  exists {| results := hits |}. split; [exact Hrun|].
  apply Hall.
  - apply elem_of_app. right. now apply list_elem_of_singleton.
  - apply to_dict_matches. apply ci_contains_refl.
Qed.

(** C8: every creation grows the store by exactly one record, put at the
    end; the records present before the call stay as they were, in their
    positions. *)
Theorem create_appends_one (recipe_in : RecipeCreate.t) (s : list dict) :
  exists r out d,
    create_recipe recipe_in s = (Ok r, s ++ [d], out)
    /\ length (s ++ [d]) = S (length s)
    /\ take (length s) (s ++ [d]) = s.
Proof.
  exists (new_entry recipe_in s), [Py.str (Z.of_nat (length s) + 1)],
         (Recipe.to_dict (new_entry recipe_in s)).
  split; [apply create_recipe_run|]. split.
  - rewrite length_app. simpl. lia.
  - apply take_app_length.
Qed.

(** C10: every creation discards the url of its input: the record built,
    stored and returned has the fields id, label and source only, no url,
    and the outcome does not depend on the url supplied. *)
Theorem create_discards_url (recipe_in : RecipeCreate.t) (s : list dict) :
  exists r out,
    create_recipe recipe_in s = (Ok r, s ++ [Recipe.to_dict r], out)
    /\ dom (Recipe.to_dict r) = ({[ "id"; "label"; "source" ]} : gset string)
    /\ Recipe.to_dict r !! "url" = None
    /\ forall u,
         create_recipe
           (RecipeCreate.Build (RecipeCreate.label recipe_in)
              (RecipeCreate.source recipe_in) u) s
         = create_recipe recipe_in s.
Proof.
  exists (new_entry recipe_in s), [Py.str (Z.of_nat (length s) + 1)].
  split; [apply create_recipe_run|]. split; [|split].
  - unfold Recipe.to_dict.
    rewrite !dom_insert_L, dom_singleton_L. set_solver.
  - reflexivity.
  - reflexivity.
Qed.

End CreateProperties.

(** ** Further lemmas *)

Section MoreLists.

Context {A : Type}.

Lemma selected_app (P : A -> Prop) l1 r1 l2 r2 :
  selected P l1 r1 -> selected P l2 r2 -> selected P (l1 ++ l2) (r1 ++ r2).
Proof.
  induction 1; intros H2; simpl; [assumption| |];
    constructor; auto.
Qed.

(** The first element on which the test raises decides the outcome of
    [Py.filter]. *)
Lemma py_filter_raises_first (f : A -> result bool) pre x post e :
  Forall (fun y => exists b, f y = Ok b) pre ->
  f x = Raise e ->
  Py.filter f (pre ++ x :: post) = Raise e.
Proof.
  induction 1 as [|y pre [b Hy] _ IH]; intros Hx; simpl.
  - now rewrite Hx.
  - rewrite Hy. simpl. now rewrite (IH Hx).
Qed.

(** When the test can raise one exception only, [Py.filter] raises it as
    soon as some element, anywhere in the list, makes the test raise. *)
Lemma py_filter_raises_any (f : A -> result bool) l e :
  Forall (fun y => (exists b, f y = Ok b) \/ f y = Raise e) l ->
  Exists (fun y => f y = Raise e) l ->
  Py.filter f l = Raise e.
Proof.
  induction 1 as [|y l Hy _ IH]; intros Hex.
  - inversion Hex.
  - simpl. destruct Hy as [[b Hy]|Hy]; [|now rewrite Hy].
    rewrite Hy. simpl. inversion Hex as [? ? Hy'|? ? Hl]; subst.
    + congruence.
    + now rewrite (IH Hl).
Qed.

Lemma py_filter_ext (f g : A -> result bool) l :
  (forall x, f x = g x) -> Py.filter f l = Py.filter g l.
Proof.
  intros H. induction l as [|x l IH]; simpl; [reflexivity|].
  now rewrite H, IH.
Qed.

Lemma first_such_app (P : A -> Prop) l k x :
  first_such P l x -> first_such P (l ++ k) x.
Proof.
  intros (pre & post & -> & Hx & Hpre).
  exists pre, (post ++ k). split; [|auto].
  now rewrite <- app_assoc.
Qed.

Lemma first_such_lookup (P : A -> Prop) l x :
  first_such P l x -> exists k, l !! k = Some x /\ P x.
Proof.
  intros (pre & post & -> & Hx & _). exists (length pre).
  split; [|assumption]. now rewrite list_lookup_middle.
Qed.

End MoreLists.

Section MoreText.

Lemma append_length s t :
  String.length (s +:+ t) = (String.length s + String.length t)%nat.
Proof.
  induction s as [|c s IH]; [reflexivity|].
  rewrite append_cons. simpl. now rewrite IH.
Qed.

Lemma append_inj_l s t u : s +:+ t = s +:+ u -> t = u.
Proof.
  induction s as [|c s IH]; intros H; [exact H|].
  rewrite !append_cons in H. injection H. auto.
Qed.

Lemma append_inj_r s t u : s +:+ u = t +:+ u -> s = t.
Proof.
  intros H.
  assert (Hlen : String.length s = String.length t).
  { apply (f_equal String.length) in H. rewrite !append_length in H. lia. }
  revert t H Hlen. induction s as [|c s IH]; intros [|d t] H Hlen;
    simpl in Hlen; try discriminate; [reflexivity|].
  rewrite !append_cons in H. injection H as -> H.
  f_equal. apply IH; [assumption|lia].
Qed.

Lemma to_int_not_nil z : Z.to_int z <> Decimal.Pos Decimal.Nil /\ Z.to_int z <> Decimal.Neg Decimal.Nil.
Proof.
  destruct z as [|p|p]; simpl; split; try discriminate;
    intros H; injection H as H;
    apply (f_equal Pos.of_uint) in H;
    rewrite DecimalPos.Unsigned.of_to in H; discriminate.
Qed.

(** [str] on ints can be read back. *)
Lemma str_inj a b : Py.str a = Py.str b -> a = b.
Proof.
  unfold Py.str. intros H.
  apply DecimalZ.to_int_inj.
  destruct (to_int_not_nil a) as [Ha1 Ha2].
  destruct (to_int_not_nil b) as [Hb1 Hb2].
  pose proof (NilZero.isi _ Ha1 Ha2) as Ea.
  pose proof (NilZero.isi _ Hb1 Hb2) as Eb.
  rewrite H in Ea. congruence.
Qed.

End MoreText.

(** ** Further properties of the handlers *)

Section MoreSearch.

(** X1: with a negative [max_results] the handler counts from the end: it
    drops that many records from the end of what it would return without a
    bound (the store, or the matching records) and returns the rest, which
    is nothing when there are no more records than that. *)
Theorem search_negative_bound (s : list dict) (m : Z) :
  m < 0 ->
  (forall kw, kw = None \/ kw = Some EmptyString ->
      search_recipes kw (Some m) s
      = (Ok {| results := take (length s - Z.to_nat (- m)) s |}, s, []))
  /\ (forall kw, kw <> EmptyString -> Forall record_ok s ->
        exists hits,
          selected (matches kw) s hits
          /\ search_recipes (Some kw) (Some m) s
             = (Ok {| results := take (length hits - Z.to_nat (- m)) hits |},
                s, [])).
Proof.
  intros Hm. split.
  - intros kw Hkw.
    rewrite search_no_keyword by (destruct Hkw as [->| ->]; reflexivity).
    now rewrite slice_to_negative.
  - intros kw Hkw Hs.
    destruct (search_with_keyword kw (Some m) s Hs Hkw) as (hits & Hsel & Hrun).
    exists hits. split; [assumption|].
    now rewrite Hrun, slice_to_negative.
Qed.

(** X2: a search with a non-empty keyword and no bound, or a bound at least
    the size of the store, loses nothing: it returns every record of the
    store whose label contains the keyword. *)
Theorem search_returns_all_matches (s : list dict) (kw : string) (m : option Z) :
  Forall record_ok s -> kw <> EmptyString ->
  (m = None \/ exists k, m = Some k /\ Z.of_nat (length s) <= k) ->
  exists hits,
    selected (matches kw) s hits
    /\ search_recipes (Some kw) m s = (Ok {| results := hits |}, s, [])
    /\ forall d, d ∈ s -> matches kw d -> d ∈ hits.
Proof. apply search_wide_bound. Qed.

(** X3: a search with a non-empty keyword raises when it meets a record
    without a text label: [KeyError] if the key is missing,
    [AttributeError] if it holds something that is not text.  The store is
    left as it was.  A search without keyword on the same store returns
    normally. *)
Theorem search_raises_on_bad_label
    (pre post : list dict) (d : dict) (kw : string) (m : option Z) :
  Forall record_ok pre -> no_text_label d -> kw <> EmptyString ->
  (exists e,
      search_recipes (Some kw) m (pre ++ d :: post)
      = (Raise e, pre ++ d :: post, [])
      /\ (d !! "label" = None -> e = KeyError "label")
      /\ (is_Some (d !! "label") -> e = AttributeError "lower"))
  /\ exists r, search_recipes None m (pre ++ d :: post)
               = (Ok r, pre ++ d :: post, []).
Proof.
  intros Hpre Hd Hkw. split.
  - assert (He : exists e,
               label_has_keyword kw d = Raise e
               /\ (d !! "label" = None -> e = KeyError "label")
               /\ (is_Some (d !! "label") -> e = AttributeError "lower")).
    { unfold label_has_keyword, Py.getitem.
      destruct (d !! "label") as [[| z |lbl]|] eqn:E; simpl.
      - exists (AttributeError "lower"). repeat split; auto. discriminate.
      - exists (AttributeError "lower"). repeat split; auto. discriminate.
      - destruct (Hd lbl E).
      - exists (KeyError "label"). repeat split; auto.
        intros [v Hv]. discriminate. }
    destruct He as (e & He & Hkey & Hattr).
    exists e. split; [|split; assumption].
    unfold search_recipes. rewrite (truthy_nonempty kw Hkw). run_handler.
    rewrite (py_filter_raises_first (label_has_keyword kw) pre d post e);
      [reflexivity| |assumption].
    eapply Forall_impl; [exact Hpre|]. intros y Hy.
    destruct (label_has_keyword_decides kw y Hy) as [[-> _]|[-> _]]; eauto.
  - eexists. now apply search_no_keyword.
Qed.

(** X4: the keyword is only looked at in lower case: two non-empty
    keywords with the same lower-case form give the same outcome, on every
    store and for every bound. *)
Theorem search_keyword_case_irrelevant
    (kw kw' : string) (m : option Z) (s : list dict) :
  kw <> EmptyString -> kw' <> EmptyString -> lower kw = lower kw' ->
  search_recipes (Some kw) m s = search_recipes (Some kw') m s.
Proof.
  intros Hkw Hkw' Hl. unfold search_recipes.
  rewrite (truthy_nonempty kw Hkw), (truthy_nonempty kw' Hkw').
  cbn [negb default]. run_handler.
  rewrite (py_filter_ext (label_has_keyword kw) (label_has_keyword kw') s);
    [reflexivity|].
  intros d. unfold label_has_keyword. now rewrite Hl.
Qed.

End MoreSearch.

Section MoreFetch.

Lemma id_is_outcomes recipe_id d :
  (exists b, id_is recipe_id d = Ok b) \/ id_is recipe_id d = Raise (KeyError "id").
Proof.
  unfold id_is, Py.getitem. destruct (d !! "id"); simpl; eauto.
Qed.

Lemma fetch_reads_only recipe_id s :
  exists r, fetch_recipe recipe_id s = (r, s, []).
Proof.
  unfold fetch_recipe. run_handler.
  destruct (Py.filter (id_is recipe_id) s) as [[|d r]|e]; eauto.
Qed.

(** X5: the comprehension of [fetch_recipe] reads ["id"] on every record,
    so one record without that key, anywhere in the store, makes every
    fetch raise [KeyError], also for an id that an earlier record has. *)
Theorem fetch_raises_on_missing_id (s : list dict) (recipe_id : Z) :
  Exists (fun d => d !! "id" = None) s ->
  fetch_recipe recipe_id s = (Raise (KeyError "id"), s, []).
Proof.
  intros Hex. unfold fetch_recipe. run_handler.
  rewrite (py_filter_raises_any (id_is recipe_id) s (KeyError "id"));
    [reflexivity| |].
  - apply Forall_forall. intros d _. apply id_is_outcomes.
  - eapply Exists_impl; [exact Hex|]. intros d Hd.
    unfold id_is, Py.getitem. now rewrite Hd.
Qed.

(** X6: a fetch is a pure read: whether it returns, raises the 404 error or
    fails on a malformed record, it leaves [RECIPES] as it found it and
    prints nothing. *)
Theorem fetch_pure_read (s : list dict) (recipe_id : Z) :
  exists r, fetch_recipe recipe_id s = (r, s, []).
Proof. apply fetch_reads_only. Qed.

Lemma ids_of_lookup s k d :
  ids_of s (seqZ 1 (Z.of_nat (length s))) ->
  s !! k = Some d -> has_id (1 + Z.of_nat k) d.
Proof.
  unfold ids_of, has_id. intros Hids Hk.
  apply (f_equal (fun l => l !! k)) in Hids.
  rewrite !list_lookup_fmap, Hk in Hids. simpl in Hids.
  apply lookup_lt_Some in Hk.
  rewrite lookup_seqZ_lt in Hids by lia. simpl in Hids.
  now injection Hids.
Qed.

(** In a store whose ids are 1..n, [fetch_recipe] is indexing. *)
Lemma fetch_by_position s recipe_id :
  Forall record_ok s -> ids_of s (seqZ 1 (Z.of_nat (length s))) ->
  (1 <= recipe_id <= Z.of_nat (length s) ->
   exists d, s !! Z.to_nat (recipe_id - 1) = Some d
             /\ fetch_recipe recipe_id s = (Ok d, s, []))
  /\ (~ (1 <= recipe_id <= Z.of_nat (length s)) ->
      fetch_recipe recipe_id s = (Raise (not_found recipe_id), s, [])).
Proof.
  intros Hok Hids.
  assert (Hpos : forall d, first_such (has_id recipe_id) s d ->
                 s !! Z.to_nat (recipe_id - 1) = Some d
                 /\ 1 <= recipe_id <= Z.of_nat (length s)).
  { intros d Hd. apply first_such_lookup in Hd as (k & Hk & Hid).
    pose proof (ids_of_lookup s k d Hids Hk) as Hid'.
    unfold has_id in *. rewrite Hid in Hid'. injection Hid' as ->.
    apply lookup_lt_Some in Hk as Hlt.
    replace (Z.to_nat (1 + Z.of_nat k - 1)) with k by lia.
    split; [assumption|lia]. }
  destruct (fetch_recipe_cases recipe_id s Hok) as [(d & Hfirst & Hrun)|[Hnone Hrun]].
  - destruct (Hpos d Hfirst) as [Hk Hrange]. split.
    + intros _. eauto.
    + intros Hout. contradiction.
  - split; [|intros _; assumption].
    intros Hrange.
    destruct (lookup_lt_is_Some_2 s (Z.to_nat (recipe_id - 1))) as [d Hd]; [lia|].
    pose proof (ids_of_lookup s _ d Hids Hd) as Hid.
    replace (1 + Z.of_nat (Z.to_nat (recipe_id - 1))) with recipe_id in Hid by lia.
    rewrite Forall_forall in Hnone.
    destruct (Hnone d); [|assumption].
    eapply list_elem_of_lookup_2; eassumption.
Qed.

(** X7: in every store reached from the seed by creations, fetching is
    indexing: an id between 1 and the size of the store returns the record
    at that position (counting from 1), and every other id raises the 404
    error. *)
Theorem fetch_reachable (inputs : list RecipeCreate.t) (recipe_id : Z) :
  (1 <= recipe_id <= Z.of_nat (length (create_all inputs RECIPES)) ->
   exists d, create_all inputs RECIPES !! Z.to_nat (recipe_id - 1) = Some d
             /\ fetch_recipe recipe_id (create_all inputs RECIPES)
                = (Ok d, create_all inputs RECIPES, []))
  /\ (~ (1 <= recipe_id <= Z.of_nat (length (create_all inputs RECIPES))) ->
      fetch_recipe recipe_id (create_all inputs RECIPES)
      = (Raise (not_found recipe_id), create_all inputs RECIPES, [])).
Proof.
  apply fetch_by_position.
  - apply reachable_ok.
  - apply create_all_ids. reflexivity.
Qed.

End MoreFetch.

Section MoreCreate.

Lemma to_dict_has_id r : has_id (Recipe.id r) (Recipe.to_dict r).
Proof. apply to_dict_id. Qed.

Lemma to_dict_keys r : dom (Recipe.to_dict r) = created_keys.
Proof.
  unfold Recipe.to_dict, created_keys.
  rewrite !dom_insert_L, dom_singleton_L. set_solver.
Qed.

Lemma create_all_app inputs1 inputs2 s :
  create_all (inputs1 ++ inputs2) s = create_all inputs2 (create_all inputs1 s).
Proof.
  revert s. induction inputs1 as [|i inputs1 IH]; intros s; [reflexivity|].
  cbn [create_all app]. apply IH.
Qed.

(** X8: in a store of well-shaped records none of which already has the
    id about to be assigned, a creation followed by a fetch of the returned
    id gives back the record just stored. *)
Theorem create_then_fetch (s : list dict) (recipe_in : RecipeCreate.t) :
  Forall record_ok s ->
  Forall (fun d => ~ has_id (Z.of_nat (length s) + 1) d) s ->
  exists r s' out,
    create_recipe recipe_in s = (Ok r, s', out)
    /\ fetch_recipe (Recipe.id r) s' = (Ok (Recipe.to_dict r), s', []).
Proof.
  intros Hok Hfresh.
  exists (new_entry recipe_in s),
         (s ++ [Recipe.to_dict (new_entry recipe_in s)]),
         [Py.str (Z.of_nat (length s) + 1)].
  split; [apply create_recipe_run|].
  set (r := new_entry recipe_in s).
  assert (Hfirst : first_such (has_id (Recipe.id r))
                     (s ++ [Recipe.to_dict r]) (Recipe.to_dict r)).
  { exists s, []. split; [reflexivity|].
    split; [apply to_dict_has_id|exact Hfresh]. }
  assert (Hok' : Forall record_ok (s ++ [Recipe.to_dict r])).
  { apply Forall_app. split; [assumption|].
    constructor; [apply to_dict_ok|constructor]. }
  destruct (fetch_recipe_cases (Recipe.id r) _ Hok')
    as [(d & Hd & Hrun)|[Hnone _]].
  - assert (E : d = Recipe.to_dict r)
      by (eapply first_such_unique; eassumption).
    now subst d.
  - apply Forall_app in Hnone as [_ Hnone]. inversion Hnone; subst.
    destruct H1. apply to_dict_has_id.
Qed.

(** X9: ids are assigned by counting, not by looking at the ids in use:
    when a record of the store already has the id about to be assigned, the
    creation still returns that id, and a fetch of it returns the older
    record, the first one with that id, not the one just created. *)
Theorem create_then_fetch_shadowed (s : list dict) (recipe_in : RecipeCreate.t) :
  Forall record_ok s ->
  Exists (has_id (Z.of_nat (length s) + 1)) s ->
  exists r s' out old,
    create_recipe recipe_in s = (Ok r, s', out)
    /\ Recipe.id r = Z.of_nat (length s) + 1
    /\ first_such (has_id (Recipe.id r)) s old
    /\ fetch_recipe (Recipe.id r) s' = (Ok old, s', []).
Proof.
  intros Hok Hdup.
  set (r := new_entry recipe_in s).
  assert (Hold : exists old, first_such (has_id (Recipe.id r)) s old).
  { destruct (fetch_recipe_cases (Recipe.id r) s Hok)
      as [(d & Hd & _)|[Hnone _]]; [eauto|].
    apply Exists_exists in Hdup as (d & Hin & Hd).
    rewrite Forall_forall in Hnone. destruct (Hnone d Hin Hd). }
  destruct Hold as [old Hold].
  exists r, (s ++ [Recipe.to_dict r]), [Py.str (Z.of_nat (length s) + 1)], old.
  split; [apply create_recipe_run|]. split; [reflexivity|].
  split; [assumption|].
  assert (Hok' : Forall record_ok (s ++ [Recipe.to_dict r])).
  { apply Forall_app. split; [assumption|].
    constructor; [apply to_dict_ok|constructor]. }
  pose proof (first_such_app _ _ [Recipe.to_dict r] _ Hold) as Hold'.
  destruct (fetch_recipe_cases (Recipe.id r) _ Hok')
    as [(d & Hd & Hrun)|[Hnone _]].
  - assert (E : d = old) by (eapply first_such_unique; eassumption).
    now subst d.
  - apply Forall_app in Hnone as [_ Hnone]. inversion Hnone; subst.
    destruct H1. apply to_dict_has_id.
Qed.

(** X10: a creation changes what an unbounded search returns in exactly
    one way: the new record is added at the end of the results when its
    label contains the keyword, and the results are unchanged otherwise. *)
Theorem create_then_search
    (s : list dict) (recipe_in : RecipeCreate.t) (kw : string) :
  Forall record_ok s -> kw <> EmptyString ->
  exists r s' out hits,
    create_recipe recipe_in s = (Ok r, s', out)
    /\ search_recipes (Some kw) None s = (Ok {| results := hits |}, s, [])
    /\ (ci_contains kw (RecipeCreate.label recipe_in) ->
        search_recipes (Some kw) None s'
        = (Ok {| results := hits ++ [Recipe.to_dict r] |}, s', []))
    /\ (~ ci_contains kw (RecipeCreate.label recipe_in) ->
        search_recipes (Some kw) None s'
        = (Ok {| results := hits |}, s', [])).
Proof.
  intros Hok Hkw.
  set (r := new_entry recipe_in s).
  destruct (search_with_keyword kw None s Hok Hkw) as (hits & Hsel & Hrun).
  exists r, (s ++ [Recipe.to_dict r]), [Py.str (Z.of_nat (length s) + 1)], hits.
  split; [apply create_recipe_run|]. split; [exact Hrun|].
  assert (Hok' : Forall record_ok (s ++ [Recipe.to_dict r])).
  { apply Forall_app. split; [assumption|].
    constructor; [apply to_dict_ok|constructor]. }
  destruct (search_with_keyword kw None _ Hok' Hkw) as (hits' & Hsel' & Hrun').
  rewrite Hrun'. simpl Py.slice_to. split; intros Hc.
  - assert (Hnew : selected (matches kw) [Recipe.to_dict r] [Recipe.to_dict r]).
    { constructor; [|constructor]. now apply to_dict_matches. }
    now rewrite (selected_unique _ _ _ _ Hsel' (selected_app _ _ _ _ _ Hsel Hnew)).
  - assert (Hnew : selected (matches kw) [Recipe.to_dict r] []).
    { constructor; [|constructor]. now rewrite to_dict_matches. }
    rewrite (selected_unique _ _ _ _ Hsel' (selected_app _ _ _ _ _ Hsel Hnew)).
    now rewrite app_nil_r.
Qed.

End MoreCreate.

Section MoreCreateAndCalls.

(** X11: after a creation with a non-empty label, a search for that label
    with a bound larger than the size of the store before the creation
    lists the new record. *)
Theorem create_found_by_label
    (s : list dict) (recipe_in : RecipeCreate.t) (m : Z) :
  Forall record_ok s ->
  RecipeCreate.label recipe_in <> EmptyString ->
  Z.of_nat (length s) < m ->
  exists r s' out res,
    create_recipe recipe_in s = (Ok r, s', out)
    /\ search_recipes (Some (RecipeCreate.label recipe_in)) (Some m) s'
       = (Ok res, s', [])
    /\ Recipe.to_dict r ∈ results res.
Proof.
  intros Hok Hlbl Hm.
  set (r := new_entry recipe_in s).
  assert (Hok' : Forall record_ok (s ++ [Recipe.to_dict r])).
  { apply Forall_app. split; [assumption|].
    constructor; [apply to_dict_ok|constructor]. }
  destruct (search_wide_bound (s ++ [Recipe.to_dict r])
              (RecipeCreate.label recipe_in) (Some m) Hok' Hlbl)
    as (hits & _ & Hrun & Hall).
  { right. exists m. split; [reflexivity|].
    rewrite length_app. simpl. lia. }
  exists r, (s ++ [Recipe.to_dict r]), [Py.str (Z.of_nat (length s) + 1)],
         {| results := hits |}.
  split; [apply create_recipe_run|]. split; [exact Hrun|].
  apply Hall.
  - apply elem_of_app. right. now apply list_elem_of_singleton.
  - apply to_dict_matches. apply ci_contains_refl.
Qed.

(** X12: the store is append-only.  After any sequence of creations, from
    any store, the old store is still there, followed by one record per
    creation, in creation order; each new record has exactly the keys id,
    label and source and carries the label of its input. *)
Theorem create_all_appends (inputs : list RecipeCreate.t) (s : list dict) :
  exists added,
    create_all inputs s = s ++ added
    /\ length added = length inputs
    /\ Forall (fun d => dom d = created_keys) added
    /\ (fun d : dict => d !! "label") <$> added
       = (fun i => Some (VStr (RecipeCreate.label i))) <$> inputs.
Proof.
  revert s. induction inputs as [|i inputs IH]; intros s.
  - exists []. cbn [create_all]. rewrite app_nil_r. repeat split; constructor.
  - cbn [create_all]. rewrite create_recipe_run. cbn [fst snd].
    destruct (IH (s ++ [Recipe.to_dict (new_entry i s)]))
      as (added & Hrun & Hlen & Hkeys & Hlabels).
    exists (Recipe.to_dict (new_entry i s) :: added).
    split; [|split; [|split]].
    + rewrite Hrun, <- app_assoc. reflexivity.
    + simpl. now rewrite Hlen.
    + constructor; [apply to_dict_keys|assumption].
    + rewrite !fmap_cons, Hlabels, to_dict_label. reflexivity.
Qed.

(** X13: the 404 detail identifies the id that was asked for: two
    different ids never give the same error. *)
Theorem not_found_distinct (a b : Z) : a <> b -> not_found a <> not_found b.
Proof.
  intros Hab H. apply Hab. unfold not_found in H. injection H as H.
  apply append_inj_l in H. apply append_inj_r in H.
  now apply str_inj.
Qed.

Lemma handle_read c s :
  (forall recipe_in, c <> CallCreate recipe_in) ->
  exists o, handle c s = (o, s, []).
Proof.
  intros Hc. destruct c as [|kw m|recipe_id|recipe_in]; unfold handle, bind.
  - unfold root, ret. eauto.
  - destruct (search_reads_only kw m s) as [[r|e] ->]; unfold ret; eauto.
  - destruct (fetch_reads_only recipe_id s) as [[r|e] ->]; unfold ret; eauto.
  - destruct (Hc recipe_in eq_refl).
Qed.

Lemma handle_create recipe_in s :
  handle (CallCreate recipe_in) s
  = (Ok (CreateReply (new_entry recipe_in s)),
     s ++ [Recipe.to_dict (new_entry recipe_in s)],
     [Py.str (Z.of_nat (length s) + 1)]).
Proof. reflexivity. Qed.

(** X14: only [create_recipe] changes the store.  After any sequence of
    calls of the four handlers, the store is what the creations among them
    alone would have produced, whatever searches, fetches and greetings
    were made in between and whether or not they raised; and every call
    has its outcome. *)
Theorem serve_store (calls : list call) (s : list dict) :
  (serve calls s).2 = create_all (creations calls) s
  /\ length (serve calls s).1 = length calls.
Proof.
  revert s. induction calls as [|c calls IH]; intros s; [split; reflexivity|].
  cbn [serve].
  destruct c as [|kw m|recipe_id|recipe_in].
  1-3: (lazymatch goal with
        | |- context [handle ?c ?s0] =>
            destruct (handle_read c s0) as [o ->]; [discriminate|]
        end;
        destruct (IH s) as [IH1 IH2];
        destruct (serve calls s) as [rs s2]; cbn [fst snd creations length] in *;
        split; [assumption|now rewrite IH2]).
  rewrite handle_create.
  destruct (IH (s ++ [Recipe.to_dict (new_entry recipe_in s)])) as [IH1 IH2].
  destruct (serve calls _) as [rs s2]. cbn [fst snd creations length] in *.
  split; [|now rewrite IH2].
  cbn [create_all]. now rewrite create_recipe_run.
Qed.

Lemma handle_outcome c s :
  Forall record_ok s ->
  exists o out,
    handle c s = (o, create_all (creations [c]) s, out)
    /\ Forall record_ok (create_all (creations [c]) s)
    /\ expected_outcome s c o.
Proof.
  intros Hok. destruct c as [|kw m|recipe_id|recipe_in];
    cbn [creations create_all expected_outcome].
  - do 2 eexists. split; [reflexivity|]. split; [assumption|]. eauto.
  - assert (Hs : exists r, search_recipes kw m s = (Ok r, s, [])).
    { destruct (Py.truthy kw) eqn:Ht.
      - destruct kw as [[|a k]|]; try discriminate.
        destruct (search_with_keyword (String a k) m s Hok) as (hits & _ & Hrun);
          [discriminate|eauto].
      - eexists. now apply search_no_keyword. }
    destruct Hs as [r Hr].
    exists (Ok (SearchReply r)), []. split.
    + unfold handle, bind. now rewrite Hr.
    + split; [assumption|]. eauto.
  - destruct (fetch_recipe_cases recipe_id s Hok) as [(d & Hd & Hrun)|[Hnone Hrun]].
    + exists (Ok (FetchReply d)), []. split.
      * unfold handle, bind. now rewrite Hrun.
      * split; [assumption|]. left. eauto.
    + exists (Raise (not_found recipe_id)), []. split.
      * unfold handle, bind. now rewrite Hrun.
      * split; [assumption|]. right. eauto.
  - rewrite create_recipe_run. cbn [fst snd].
    do 2 eexists. split; [apply handle_create|]. split; [|reflexivity].
    apply Forall_app. split; [assumption|].
    constructor; [apply to_dict_ok|constructor].
Qed.

Lemma creations_cons c calls :
  creations (c :: calls) = creations [c] ++ creations calls.
Proof. destruct c; reflexivity. Qed.

(** X15: starting from a store of well-shaped records (the seeded store
    is one), every call in a sequence of calls gives what it must give in
    the store it finds, which is the starting store after the creations
    made before it: [root], searches and creations return; a fetch returns
    the first record with the id, or raises the 404 error for that id
    when that store has no record with it.  No call fails on a malformed
    record. *)
Theorem serve_outcomes
    (calls : list call) (s : list dict) (i : nat) (c : call) (o : result reply) :
  Forall record_ok s ->
  calls !! i = Some c ->
  (serve calls s).1 !! i = Some o ->
  expected_outcome (create_all (creations (take i calls)) s) c o.
Proof.
  revert s i. induction calls as [|c0 calls IH]; intros s i Hok Hc Ho;
    [discriminate|].
  cbn [serve] in Ho.
  destruct (handle_outcome c0 s Hok) as (o0 & out & Hrun & Hok1 & Hexp).
  rewrite Hrun in Ho.
  destruct (serve calls (create_all (creations [c0]) s)) as [rs s2] eqn:Es.
  cbn [fst] in Ho.
  destruct i as [|i].
  - simpl in Hc, Ho. injection Hc as <-. injection Ho as <-. exact Hexp.
  - simpl in Hc, Ho. cbn [take].
    rewrite creations_cons, create_all_app.
    apply (IH _ i Hok1 Hc). now rewrite Es.
Qed.

End MoreCreateAndCalls.

End Handlers.

(** ** The handlers on ASCII examples

    The lemmas of this part run the handlers on concrete stores, keywords
    and labels.  All text in them is ASCII, so [str.lower] is
    [Py.lower_ascii] there. *)

Example search_chicken :
  search_recipes Py.lower_ascii (Some "chicken") (Some 10) RECIPES
  = (Ok {| results := take 2 RECIPES |}, RECIPES, []).
Proof. by_evaluation. Qed.

(** C1, at a negative bound: on the seeded store, searching "chicken"
    with [max_results = -1] returns the first of the two matching records,
    which is not "the first -1 matches" (none). *)
Lemma search_keyword_negative_bound :
  search_recipes Py.lower_ascii (Some "chicken") (Some (-1)) RECIPES
  = (Ok {| results := take 1 RECIPES |}, RECIPES, [])
  /\ ~ (exists hits,
          selected (matches Py.lower_ascii "chicken") RECIPES hits
          /\ search_recipes Py.lower_ascii (Some "chicken") (Some (-1)) RECIPES
             = (Ok {| results := take (Z.to_nat (-1)) hits |}, RECIPES, [])).
Proof.
  assert (E : search_recipes Py.lower_ascii (Some "chicken") (Some (-1)) RECIPES
              = (Ok {| results := take 1 RECIPES |}, RECIPES, []))
    by by_evaluation.
  split; [exact E|].
  intros (hits & _ & H). rewrite E in H.
  change (Z.to_nat (-1)) with 0%nat in H.
  injection H as H. discriminate H.
Qed.

Lemma search_keyword_matches_witness :
  Forall record_ok RECIPES /\ "chicken" <> EmptyString
  /\ exists hits res,
       selected (matches Py.lower_ascii "chicken") RECIPES hits
       /\ search_recipes Py.lower_ascii (Some "chicken") (Some 10) RECIPES
          = (Ok {| results := res |}, RECIPES, [])
       /\ Forall (matches Py.lower_ascii "chicken") res
       /\ res `sublist_of` RECIPES
       /\ (0 <= 10 -> res = take (Z.to_nat 10) hits).
Proof.
  split; [exact RECIPES_ok|]. split; [discriminate|].
  apply (search_keyword_matches Py.lower_ascii RECIPES "chicken" 10);
    [exact RECIPES_ok|discriminate].
Defined.

Lemma fetch_recipe_spec_witness :
  Forall record_ok RECIPES
  /\ ((exists d, first_such (has_id 3) RECIPES d
                 /\ fetch_recipe 3 RECIPES = (Ok d, RECIPES, []))
      \/ (Forall (fun d => ~ has_id 3 d) RECIPES
          /\ fetch_recipe 3 RECIPES = (Raise (not_found 3), RECIPES, []))).
Proof.
  split; [exact RECIPES_ok|].
  apply (proj1 (proj1 fetch_recipe_spec RECIPES 3 RECIPES_ok)).
Defined.

(** C5, at a negative bound: on the seeded store a search without keyword
    and [max_results = -1] returns two records, more than [-1]. *)
Lemma search_exceeds_negative_bound :
  search_recipes Py.lower_ascii None (Some (-1)) RECIPES
  = (Ok {| results := take 2 RECIPES |}, RECIPES, [])
  /\ ~ (Z.of_nat (length (take 2 RECIPES)) <= -1).
Proof.
  split; [by_evaluation|]. simpl. lia.
Qed.

Lemma search_bounded_witness :
  Forall record_ok RECIPES /\ 0 <= 2
  /\ exists res,
       search_recipes Py.lower_ascii (Some "chicken") (Some 2) RECIPES = (Ok res, RECIPES, [])
       /\ Z.of_nat (length (results res)) <= 2.
Proof.
  split; [exact RECIPES_ok|]. split; [lia|].
  apply (search_bounded Py.lower_ascii RECIPES (Some "chicken") 2); [exact RECIPES_ok|lia].
Defined.

(** C6, at a negative bound: on the seeded store a search without keyword
    and [max_results = -2] returns the first record, which is not "the
    first -2 records" (none). *)
Lemma search_all_negative_bound :
  search_recipes Py.lower_ascii None (Some (-2)) RECIPES
  = (Ok {| results := take 1 RECIPES |}, RECIPES, [])
  /\ take 1 RECIPES <> take (Z.to_nat (-2)) RECIPES.
Proof.
  split; [by_evaluation|]. discriminate.
Qed.

Lemma search_without_keyword_witness :
  (@None string = None \/ @None string = Some EmptyString) /\ 0 <= 2
  /\ search_recipes Py.lower_ascii None (Some 2) RECIPES
     = (Ok {| results := take (Z.to_nat 2) RECIPES |}, RECIPES, []).
Proof.
  split; [now left|]. split; [lia|].
  apply (proj1 (search_without_keyword Py.lower_ascii) RECIPES None 2); [now left|lia].
Defined.

Lemma search_negative_bound_witness :
  -1 < 0
  /\ search_recipes Py.lower_ascii None (Some (-1)) RECIPES
     = (Ok {| results := take (length RECIPES - Z.to_nat (- (-1))) RECIPES |},
        RECIPES, []).
Proof.
  split; [reflexivity|].
  apply (proj1 (search_negative_bound Py.lower_ascii RECIPES (-1) eq_refl) None). now left.
Defined.

Lemma search_returns_all_matches_witness :
  Forall record_ok RECIPES /\ "tofu" <> EmptyString
  /\ (Some 3 = None \/ exists k, Some 3 = Some k /\ Z.of_nat (length RECIPES) <= k)
  /\ exists hits,
       selected (matches Py.lower_ascii "tofu") RECIPES hits
       /\ search_recipes Py.lower_ascii (Some "tofu") (Some 3) RECIPES
          = (Ok {| results := hits |}, RECIPES, [])
       /\ forall d, d ∈ RECIPES -> matches Py.lower_ascii "tofu" d -> d ∈ hits.
Proof.
  assert (H : Some 3 = None
              \/ exists k, Some 3 = Some k /\ Z.of_nat (length RECIPES) <= k).
  { right. exists 3. split; [reflexivity|]. simpl. lia. }
  split; [exact RECIPES_ok|]. split; [discriminate|]. split; [exact H|].
  apply (search_returns_all_matches Py.lower_ascii RECIPES "tofu" (Some 3) RECIPES_ok);
    [discriminate|exact H].
Defined.

Lemma search_raises_on_bad_label_witness :
  Forall record_ok RECIPES
  /\ no_text_label {[ "id" := VInt 4 ]}
  /\ "soup" <> EmptyString
  /\ exists e,
       search_recipes Py.lower_ascii (Some "soup") (Some 10)
         (RECIPES ++ {[ "id" := VInt 4 ]} :: [])
       = (Raise e, RECIPES ++ {[ "id" := VInt 4 ]} :: [], [])
       /\ (({[ "id" := VInt 4 ]} : dict) !! "label" = None -> e = KeyError "label")
       /\ (is_Some (({[ "id" := VInt 4 ]} : dict) !! "label")
           -> e = AttributeError "lower").
Proof.
  assert (H : no_text_label {[ "id" := VInt 4 ]}).
  { intros lbl. discriminate. }
  split; [exact RECIPES_ok|]. split; [exact H|]. split; [discriminate|].
  apply (proj1 (search_raises_on_bad_label Py.lower_ascii RECIPES [] {[ "id" := VInt 4 ]}
                  "soup" (Some 10) RECIPES_ok H ltac:(discriminate))).
Defined.

Lemma fetch_raises_on_missing_id_witness :
  Exists (fun d : dict => d !! "id" = None)
    [ {[ "id" := VInt 1; "label" := VStr "Soup" ]}; {[ "label" := VStr "Stew" ]} ]
  /\ fetch_recipe 1
       [ {[ "id" := VInt 1; "label" := VStr "Soup" ]}; {[ "label" := VStr "Stew" ]} ]
     = (Raise (KeyError "id"),
        [ {[ "id" := VInt 1; "label" := VStr "Soup" ]}; {[ "label" := VStr "Stew" ]} ],
        []).
Proof.
  assert (H : Exists (fun d : dict => d !! "id" = None)
                [ {[ "id" := VInt 1; "label" := VStr "Soup" ]};
                  {[ "label" := VStr "Stew" ]} ]).
  { apply Exists_cons_tl, Exists_cons_hd. reflexivity. }
  split; [exact H|].
  apply (fetch_raises_on_missing_id _ 1 H).
Defined.

Lemma fetch_reachable_witness :
  1 <= 4 <= Z.of_nat (length (create_all [lasagna] RECIPES))
  /\ exists d, create_all [lasagna] RECIPES !! Z.to_nat (4 - 1) = Some d
               /\ fetch_recipe 4 (create_all [lasagna] RECIPES)
                  = (Ok d, create_all [lasagna] RECIPES, []).
Proof.
  assert (H : 1 <= 4 <= Z.of_nat (length (create_all [lasagna] RECIPES))).
  { split; discriminate. }
  split; [exact H|].
  apply (proj1 (fetch_reachable [lasagna] 4) H).
Defined.

Lemma create_then_fetch_witness :
  Forall record_ok RECIPES
  /\ Forall (fun d => ~ has_id (Z.of_nat (length RECIPES) + 1) d) RECIPES
  /\ exists r s' out,
       create_recipe lasagna RECIPES = (Ok r, s', out)
       /\ fetch_recipe (Recipe.id r) s' = (Ok (Recipe.to_dict r), s', []).
Proof.
  assert (H : Forall (fun d => ~ has_id (Z.of_nat (length RECIPES) + 1) d) RECIPES).
  { unfold RECIPES, has_id. repeat constructor; discriminate. }
  split; [exact RECIPES_ok|]. split; [exact H|].
  apply (create_then_fetch RECIPES lasagna RECIPES_ok H).
Defined.

Lemma create_then_fetch_shadowed_witness :
  Forall record_ok [ ({[ "id" := VInt 2; "label" := VStr "Soup" ]} : dict) ]
  /\ Exists (has_id (Z.of_nat (length [ ({[ "id" := VInt 2; "label" := VStr "Soup" ]} : dict) ]) + 1))
       [ ({[ "id" := VInt 2; "label" := VStr "Soup" ]} : dict) ]
  /\ exists r s' out old,
       create_recipe lasagna [ ({[ "id" := VInt 2; "label" := VStr "Soup" ]} : dict) ]
       = (Ok r, s', out)
       /\ Recipe.id r
          = Z.of_nat (length [ ({[ "id" := VInt 2; "label" := VStr "Soup" ]} : dict) ]) + 1
       /\ first_such (has_id (Recipe.id r))
            [ ({[ "id" := VInt 2; "label" := VStr "Soup" ]} : dict) ] old
       /\ fetch_recipe (Recipe.id r) s' = (Ok old, s', []).
Proof.
  assert (H1 : Forall record_ok
                 [ ({[ "id" := VInt 2; "label" := VStr "Soup" ]} : dict) ]).
  { repeat constructor; eexists; reflexivity. }
  assert (H2 : Exists (has_id (Z.of_nat (length
                 [ ({[ "id" := VInt 2; "label" := VStr "Soup" ]} : dict) ]) + 1))
                 [ ({[ "id" := VInt 2; "label" := VStr "Soup" ]} : dict) ]).
  { apply Exists_cons_hd. reflexivity. }
  split; [exact H1|]. split; [exact H2|].
  apply (create_then_fetch_shadowed _ lasagna H1 H2).
Defined.

Lemma create_then_search_witness :
  Forall record_ok RECIPES /\ "lasagna" <> EmptyString
  /\ exists r s' out hits,
       create_recipe lasagna RECIPES = (Ok r, s', out)
       /\ search_recipes Py.lower_ascii (Some "lasagna") None RECIPES
          = (Ok {| results := hits |}, RECIPES, [])
       /\ (ci_contains Py.lower_ascii "lasagna" (RecipeCreate.label lasagna) ->
           search_recipes Py.lower_ascii (Some "lasagna") None s'
           = (Ok {| results := hits ++ [Recipe.to_dict r] |}, s', []))
       /\ (~ ci_contains Py.lower_ascii "lasagna" (RecipeCreate.label lasagna) ->
           search_recipes Py.lower_ascii (Some "lasagna") None s'
           = (Ok {| results := hits |}, s', [])).
Proof.
  split; [exact RECIPES_ok|]. split; [discriminate|].
  apply (create_then_search Py.lower_ascii RECIPES lasagna "lasagna" RECIPES_ok).
  discriminate.
Defined.

Lemma create_found_by_label_witness :
  Forall record_ok RECIPES
  /\ RecipeCreate.label lasagna <> EmptyString
  /\ Z.of_nat (length RECIPES) < 4
  /\ exists r s' out res,
       create_recipe lasagna RECIPES = (Ok r, s', out)
       /\ search_recipes Py.lower_ascii (Some (RecipeCreate.label lasagna)) (Some 4) s'
          = (Ok res, s', [])
       /\ Recipe.to_dict r ∈ results res.
Proof.
  split; [exact RECIPES_ok|]. split; [discriminate|]. split; [reflexivity|].
  apply (create_found_by_label Py.lower_ascii RECIPES lasagna 4 RECIPES_ok);
    [discriminate|reflexivity].
Defined.

Lemma not_found_distinct_witness : 7 <> 70 /\ not_found 7 <> not_found 70.
Proof.
  split; [discriminate|]. apply (not_found_distinct 7 70). discriminate.
Defined.

Lemma search_keyword_case_irrelevant_witness :
  "CHICKEN" <> EmptyString /\ "chicken" <> EmptyString
  /\ Py.lower_ascii "CHICKEN" = Py.lower_ascii "chicken"
  /\ search_recipes Py.lower_ascii (Some "CHICKEN") (Some 10) RECIPES
     = search_recipes Py.lower_ascii (Some "chicken") (Some 10) RECIPES.
Proof.
  split; [discriminate|]. split; [discriminate|]. split; [reflexivity|].
  apply (search_keyword_case_irrelevant Py.lower_ascii "CHICKEN" "chicken"
           (Some 10) RECIPES); [discriminate|discriminate|reflexivity].
Defined.

Lemma serve_outcomes_witness :
  Forall record_ok RECIPES
  /\ [CallFetch 4; CallCreate lasagna; CallFetch 4] !! 2%nat = Some (CallFetch 4)
  /\ (serve Py.lower_ascii [CallFetch 4; CallCreate lasagna; CallFetch 4] RECIPES).1
       !! 2%nat
     = Some (Ok (FetchReply (Recipe.to_dict (new_entry lasagna RECIPES))))
  /\ expected_outcome
       (create_all
          (creations (take 2 [CallFetch 4; CallCreate lasagna; CallFetch 4]))
          RECIPES)
       (CallFetch 4)
       (Ok (FetchReply (Recipe.to_dict (new_entry lasagna RECIPES)))).
Proof.
  assert (H : (serve Py.lower_ascii
                 [CallFetch 4; CallCreate lasagna; CallFetch 4] RECIPES).1
                !! 2%nat
              = Some (Ok (FetchReply (Recipe.to_dict (new_entry lasagna RECIPES)))))
    by by_evaluation.
  split; [exact RECIPES_ok|]. split; [reflexivity|]. split; [exact H|].
  apply (serve_outcomes Py.lower_ascii
           [CallFetch 4; CallCreate lasagna; CallFetch 4] RECIPES 2
           (CallFetch 4) _ RECIPES_ok eq_refl H).
Defined.
